(** * The Microsandbox greeter: C and C++ bindings

    A shallow embedding of [microsandbox_greet] (sdk/c/src/microsandbox.c)
    and of [microsandbox::greet] (sdk/cpp/src/microsandbox.cpp), and the
    properties of the greeting they build, return and print.

    The C binding works on memory: it measures three NUL-terminated arrays
    with [strlen], adds the lengths in [size_t], asks [malloc] for a buffer,
    fills it with [sprintf] and prints it with [printf].  The embedding keeps
    each of those steps: memory is a list of blocks of cells, a cell is a byte
    or indeterminate, [size_t] arithmetic wraps around, [malloc] may refuse,
    [sprintf] and [printf] count what they produce in an [int] and stop
    when the count passes [INT_MAX], and reading or writing outside an
    object is undefined behaviour, which the embedding reports as [None].

    The C++ binding works on [std::string] values and on the [std::cout]
    stream; it is a function from the name and the stream to the message
    and the stream.

    The two test programs that call the bindings are embedded as well, with
    [strstr], [free] and [std::string::find] as they use them. *)

From Stdlib Require Import ZArith Lia Ascii.
From stdpp Require Import base option list strings.

(** ** Bytes and character sequences *)

Definition NUL : ascii := Ascii.zero.
Definition newline : ascii := "010"%char.

(** The characters of a string literal, without terminator. *)
Definition chars (s : string) : list ascii := String.list_ascii_of_string s.

(** ** Memory of the C program *)

(** A cell of an object: a byte, or [None] while it is indeterminate (the
    contents of a block [malloc] has just returned). *)
Definition cell : Type := option ascii.

(** A [char*] value: the null pointer, a pointer into the static array of a
    string literal, or a pointer into block [b] of the heap; [off] is the
    offset inside the object. *)
Inductive ptr : Type :=
  | NULL
  | Rodata (lit : string) (off : nat)
  | Dyn (b : nat) (off : nat).

Definition is_null (p : ptr) : bool :=
  match p with NULL => true | _ => false end.

(** Blocks are numbered in allocation order; [stdout] is the sequence of
    characters written to the standard output so far. *)
Record world : Type := World {
  heap : list (list cell);
  stdout : list ascii
}.

(** The array a string literal denotes: its characters and a terminator. *)
Definition literal_array (lit : string) : list cell :=
  Some <$> (chars lit ++ [NUL]).

(** The cells from [p] to the end of the object [p] points into. *)
Definition cells_at (w : world) (p : ptr) : option (list cell) :=
  match p with
  | NULL => None
  | Rodata lit off => Some (drop off (literal_array lit))
  | Dyn b off => drop off <$> heap w !! b
  end.

(** Read characters up to the first NUL.  Running off the end of the object
    or reading an indeterminate cell is undefined. *)
Fixpoint scan (cells : list cell) : option (list ascii) :=
  match cells with
  | Some c :: rest =>
      if Ascii.eqb c NUL then Some [] else cons c <$> scan rest
  | _ => None
  end.

(** The C string [p] points to, when it points to one. *)
Definition cstring_at (w : world) (p : ptr) : option (list ascii) :=
  cells_at w p ≫= scan.

(** ** Computations of the C program

    A computation takes the world to a result and a new world, or to [None]
    when its behaviour is undefined. *)

Definition C (A : Type) : Type := world -> option (A * world).

#[global] Instance C_ret : MRet C :=
  fun A (a : A) w => Some (a, w).

#[global] Instance C_bind : MBind C :=
  fun A B (k : A -> C B) (c : C A) w =>
    match c w with
    | Some (a, w') => k a w'
    | None => None
    end.

(** Write [bytes] at [p].  The destination has to be a heap object with room
    for all of them; a literal is read-only. *)
Definition store (p : ptr) (bytes : list ascii) : C unit :=
  fun w =>
    match p with
    | Dyn b off =>
        match heap w !! b with
        | Some obj =>
            if decide (off + length bytes <= length obj)%nat
            then Some (tt, World (<[b := take off obj ++ (Some <$> bytes)
                                          ++ drop (off + length bytes) obj]>
                                    (heap w))
                                 (stdout w))
            else None
        | None => None
        end
    | _ => None
    end.

(** The largest [int] (limits.h), for the 32-bit [int] of the platforms the
    SDK is built for.  [sprintf] and [printf] count what they produce in an
    [int]. *)
Definition INT_MAX : Z := 2147483647.

(** What a formatted output function produces from the pieces of its
    format, taken in order and counted from [count]: a piece is written,
    then its length is added to the count; once the count passes [INT_MAX]
    the call fails (EOVERFLOW) and the pieces that follow are not written.
    This is the order in which the GNU C library writes and counts. *)
Fixpoint produce (count : Z) (pieces : list (list ascii)) : list ascii :=
  match pieces with
  | [] => []
  | piece :: rest =>
      piece ++ (if decide (count + Z.of_nat (length piece) <= INT_MAX)%Z
                then produce (count + Z.of_nat (length piece)) rest
                else [])
  end.

(** [sprintf(str, "%s%s%s", a, b, c)]: what the three strings produce is
    written at [str], and a terminator after it.  The function's [int]
    result, negative when the call fails, is discarded by the caller. *)
Definition sprintf_sss (str a b c : ptr) : C unit :=
  fun w =>
    match cstring_at w a, cstring_at w b, cstring_at w c with
    | Some sa, Some sb, Some sc =>
        store str (produce 0 [sa; sb; sc] ++ [NUL]) w
    | _, _, _ => None
    end.

(** [printf("%s\n", s)]: what the string and a newline produce is appended
    to the standard output.  The result is discarded as well. *)
Definition printf_s_nl (s : ptr) : C unit :=
  fun w =>
    match cstring_at w s with
    | Some cs =>
        Some (tt, World (heap w) (stdout w ++ produce 0 [cs; [newline]]))
    | None => None
    end.

Section Platform.

(** The width of [size_t], and the allocator's decision to serve a request
    of a given size in a given heap.  Both belong to the platform, not to
    the repository. *)
Variable size_bits : Z.
Variable malloc_ok : list (list cell) -> Z -> bool.

(** Conversion to [size_t]. *)
Definition size_t (x : Z) : Z := (x mod 2 ^ size_bits)%Z.

(** The array of [s] and the arrays of the two literals of
    [microsandbox_greet] are objects of one address space of
    [2 ^ size_bits] bytes.  Every string the function can be passed is
    addressable: it lies in memory next to the function's own literals. *)
Definition addressable (s : list ascii) : Prop :=
  (Z.of_nat (length (s ++ [NUL]))
   + Z.of_nat (length (literal_array "Hello, "))
   + Z.of_nat (length (literal_array "! Welcome to Microsandbox!"))
   <= 2 ^ size_bits)%Z.

Definition strlen (s : ptr) : C Z :=
  fun w =>
    match cstring_at w s with
    | Some cs => Some (size_t (Z.of_nat (length cs)), w)
    | None => None
    end.

(** A served request yields a new block of [size] indeterminate cells;
    a refused one yields the null pointer and leaves the world alone. *)
Definition malloc (size : Z) : C ptr :=
  fun w =>
    if malloc_ok (heap w) size
    then Some (Dyn (length (heap w)) 0,
               World (heap w ++ [replicate (Z.to_nat size) None]) (stdout w))
    else Some (NULL, w).

(** sdk/c/src/microsandbox.c, lines 6 to 25. *)
Definition microsandbox_greet (name : ptr) : C ptr :=
  let prefix := Rodata "Hello, " 0 in
  let suffix := Rodata "! Welcome to Microsandbox!" 0 in
  lp ← strlen prefix;
  ln ← strlen name;
  ls ← strlen suffix;
  let total_length := size_t (size_t (size_t (lp + ln) + ls) + 1) in
  message ← malloc total_length;
  if is_null message then mret NULL
  else
    sprintf_sss message prefix name suffix;;
    printf_s_nl message;;
    mret message.

End Platform.

(** ** The C++ binding *)

Module microsandbox.

(** [std::endl] puts a newline (and flushes, which does not change what
    has been written). *)
Definition endl : string := String newline EmptyString.

(** sdk/cpp/src/microsandbox.cpp, lines 4 to 8.  The second argument and
    the second result are the contents of [std::cout].  The function has
    no error path of its own; an exception of the library ([std::bad_alloc])
    is outside the model. *)
Definition greet (name : string) (cout : string) : string * string :=
  let message := ("Hello, " +:+ name) +:+ "! Welcome to Microsandbox!" in
  let cout := cout +:+ message in
  let cout := cout +:+ endl in
  (message, cout).

End microsandbox.

(** ** The greeting, as the specification words it *)

(** ["Hello, " + name + "! Welcome to Microsandbox!"], over the character
    sequences of C and over [std::string]. *)
Definition greeting (name : list ascii) : list ascii :=
  chars "Hello, " ++ name ++ chars "! Welcome to Microsandbox!".

Definition greeting_text (name : string) : string :=
  "Hello, " +:+ name +:+ "! Welcome to Microsandbox!".

(** The greeting of [name] and the newline after it can be counted in an
    [int]: neither [sprintf] nor [printf] fails on them. *)
Definition within_int (name : list ascii) : Prop :=
  (Z.of_nat (length name) + 34 <= INT_MAX)%Z.

(** What [sprintf] leaves in the buffer, before the terminator. *)
Definition built (name : list ascii) : list ascii :=
  produce 0 [chars "Hello, "; name; chars "! Welcome to Microsandbox!"].

(** ** Sample platforms and worlds *)

Definition always_serves : list (list cell) -> Z -> bool := fun _ _ => true.
Definition never_serves : list (list cell) -> Z -> bool := fun _ _ => false.

(** A program that has allocated and printed nothing yet. *)
Definition fresh_world : world := World [] [].

(** The argument of the repository's tests: the literal ["Test"]. *)
Definition test_name : ptr := Rodata "Test" 0.

(** A name of [INT_MAX - 6] characters, and a world that holds it in its
    only block. *)
Definition long_name : list ascii :=
  replicate (Z.to_nat 2147483641) "a"%char.

Definition long_world : world := World [Some <$> (long_name ++ [NUL])] [].

(** ** The callers: the test programs

    sdk/c/test/test_microsandbox.c and sdk/cpp/test/test_microsandbox.cpp
    call the greeter once, on the literal ["Test"], look for
    ["Hello, Test!"] in the result and report on the standard output.  The
    C test also gives the buffer back with [free]. *)

(** [p + i] on [char*]. *)
Definition ptr_add (p : ptr) (i : nat) : ptr :=
  match p with
  | NULL => NULL
  | Rodata lit off => Rodata lit (off + i)
  | Dyn b off => Dyn b (off + i)
  end.

(** The position of the first occurrence of [needle] in [hay]. *)
Fixpoint find_first (needle hay : list ascii) {struct hay} : option nat :=
  if decide (needle `prefix_of` hay) then Some 0%nat
  else match hay with
       | [] => None
       | _ :: hay' => S <$> find_first needle hay'
       end.

(** [strstr(haystack, needle)]: a pointer to the first occurrence of the
    string [needle] in the string [haystack], or the null pointer. *)
Definition strstr (haystack needle : ptr) : C ptr :=
  fun w =>
    match cstring_at w haystack, cstring_at w needle with
    | Some h, Some n =>
        Some (match find_first n h with
              | Some i => ptr_add haystack i
              | None => NULL
              end, w)
    | _, _ => None
    end.

(** [printf(format)] for a format without conversion specification: its
    characters are appended to the standard output.  A format with a [%] is
    not covered. *)
Definition printf_plain (format : ptr) : C unit :=
  fun w =>
    match cstring_at w format with
    | Some cs =>
        if decide ("%"%char ∈ cs) then None
        else Some (tt, World (heap w) (stdout w ++ cs))
    | None => None
    end.

(** A process that also gives blocks back: the world, and the blocks
    released so far. *)
Record process : Type := Process {
  mem : world;
  released : list nat
}.

Definition P (A : Type) : Type := process -> option (A * process).

#[global] Instance P_ret : MRet P :=
  fun A (a : A) st => Some (a, st).

#[global] Instance P_bind : MBind P :=
  fun A B (k : A -> P B) (c : P A) st =>
    match c st with
    | Some (a, st') => k a st'
    | None => None
    end.

(** A computation that releases nothing. *)
Definition lift {A} (c : C A) : P A :=
  fun st =>
    match c (mem st) with
    | Some (a, w') => Some (a, Process w' (released st))
    | None => None
    end.

(** [free(p)]: nothing for the null pointer; otherwise [p] has to be the
    start of a block that has not been released yet.  The block's number is
    not used again and its cells are gone, so that a later read through a
    stale pointer is undefined. *)
Definition free (p : ptr) : P unit :=
  fun st =>
    match p with
    | NULL => Some (tt, st)
    | Dyn b 0 =>
        match heap (mem st) !! b with
        | Some _ =>
            if decide (b ∈ released st) then None
            else Some (tt, Process (World (<[b := []]> (heap (mem st)))
                                          (stdout (mem st)))
                                   (b :: released st))
        | None => None
        end
    | _ => None
    end.

(** Released blocks are blocks that were allocated. *)
Definition released_allocated (st : process) : Prop :=
  Forall (fun b => (b < length (heap (mem st)))%nat) (released st).

(** sdk/c/test/test_microsandbox.c *)
Module test_microsandbox_c.
Section Test.

Variable size_bits : Z.
Variable malloc_ok : list (list cell) -> Z -> bool.

(** Lines 7 to 18.  [&&] does not call [strstr] on a null result. *)
Definition test_greet : P Z :=
  let test_name := Rodata "Test" 0 in
  result ← lift (microsandbox_greet size_bits malloc_ok test_name);
  success ← (if is_null result then mret 0%Z
             else
               found ← lift (strstr result (Rodata "Hello, Test!" 0));
               mret (if is_null found then 0%Z else 1%Z));
  free result;;
  mret success.

(** Lines 20 to 28; the result is the exit status. *)
Definition main : P Z :=
  ok ← test_greet;
  if (ok =? 0)%Z
  then
    lift (printf_plain (Rodata ("Test failed!" +:+ String newline "") 0));;
    mret 1%Z
  else
    lift (printf_plain (Rodata ("Test passed!" +:+ String newline "") 0));;
    mret 0%Z.

End Test.
End test_microsandbox_c.

(** sdk/cpp/test/test_microsandbox.cpp *)
Module test_microsandbox_cpp.

(** [s.find(needle)]: the position of the first occurrence; [None] stands
    for [std::string::npos]. *)
Definition find (s needle : string) : option nat := String.index 0 needle s.

(** Lines 6 to 13. *)
Definition test_greet (cout : string) : bool * string :=
  let '(result, cout) := microsandbox.greet "Test" cout in
  let success := bool_decide (find result "Hello, Test!" <> None) in
  (success, cout).

(** Lines 15 to 23; the result is the exit status. *)
Definition main (cout : string) : Z * string :=
  let '(ok, cout) := test_greet cout in
  if ok
  then (0%Z, (cout +:+ "Test passed!") +:+ microsandbox.endl)
  else (1%Z, (cout +:+ "Test failed!") +:+ microsandbox.endl).

End test_microsandbox_cpp.

(** A process that has released nothing. *)
Definition fresh_process : process := Process fresh_world [].

(** ** Facts about C strings in memory *)

Lemma scan_cstring (s : list ascii) (rest : list cell) :
  NUL ∉ s -> scan ((Some <$> s) ++ Some NUL :: rest) = Some s.
Proof.
  induction s as [|c s IH]; intros Hnul.
  - reflexivity.
  - apply not_elem_of_cons in Hnul as [Hc Hs].
    rewrite fmap_cons. cbn [app scan].
    destruct (Ascii.eqb_spec c NUL) as [->|_]; [done|].
    by rewrite IH.
Qed.

Lemma scan_inv (cells : list cell) (s : list ascii) :
  scan cells = Some s ->
  (NUL ∉ s) /\ exists rest, cells = (Some <$> s) ++ Some NUL :: rest.
Proof.
  revert s. induction cells as [|[c|] cells IH]; intros s; simpl; try done.
  destruct (Ascii.eqb_spec c NUL) as [->|Hc].
  - intros [= <-]. split; [apply not_elem_of_nil | by exists cells].
  - destruct (scan cells) as [t|] eqn:Ht; simpl; [|done].
    intros [= <-]. destruct (IH t eq_refl) as [Hnul [rest ->]].
    split; [|by exists rest].
    apply not_elem_of_cons. split; [congruence | done].
Qed.

Lemma cstring_at_no_NUL (w : world) (p : ptr) (s : list ascii) :
  cstring_at w p = Some s -> NUL ∉ s.
Proof.
  unfold cstring_at. destruct (cells_at w p) as [cells|]; simpl; [|done].
  intros H. by apply scan_inv in H as [? _].
Qed.

(** Allocating further blocks does not move or change a string. *)
Lemma cstring_at_grow (w : world) (p : ptr) (s : list ascii)
      (more : list (list cell)) (out : list ascii) :
  cstring_at w p = Some s ->
  cstring_at (World (heap w ++ more) out) p = Some s.
Proof.
  unfold cstring_at. destruct p as [|lit off|b off]; simpl; try done.
  destruct (heap w !! b) as [obj|] eqn:Hb; simpl; [|done].
  by rewrite (lookup_app_l_Some _ _ _ _ Hb).
Qed.

(** A block that starts with a string and its terminator. *)
Lemma cstring_at_block_padded (h : list (list cell)) (out : list ascii)
      (s : list ascii) (pad : list cell) :
  NUL ∉ s ->
  cstring_at (World (h ++ [(Some <$> (s ++ [NUL])) ++ pad]) out)
             (Dyn (length h) 0)
  = Some s.
Proof.
  intros Hs. unfold cstring_at. simpl.
  rewrite list_lookup_middle by done. simpl.
  rewrite fmap_app, <- app_assoc. by apply scan_cstring.
Qed.

(** A block that holds exactly a string and its terminator. *)
Lemma cstring_at_block (h : list (list cell)) (out : list ascii)
      (s : list ascii) :
  NUL ∉ s ->
  cstring_at (World (h ++ [Some <$> (s ++ [NUL])]) out) (Dyn (length h) 0)
  = Some s.
Proof.
  intros Hs.
  rewrite <- (app_nil_r (Some <$> (s ++ [NUL]))).
  by apply cstring_at_block_padded.
Qed.

Lemma chars_app (a b : string) : chars (a +:+ b) = chars a ++ chars b.
Proof.
  unfold chars. induction a as [|c a IH]; simpl; [done|].
  by rewrite <- IH.
Qed.

Lemma length_greeting (s : list ascii) :
  length (greeting s) = (length s + 33)%nat.
Proof. unfold greeting. rewrite !length_app. simpl. lia. Qed.

Lemma greeting_no_NUL (s : list ascii) : NUL ∉ s -> NUL ∉ greeting s.
Proof.
  intros Hs. unfold greeting. rewrite !not_elem_of_app. split_and!; [|done|].
  - by apply (bool_decide_unpack _); vm_compute.
  - by apply (bool_decide_unpack _); vm_compute.
Qed.

(** ** What [sprintf] and [printf] produce *)

(** The name is the last piece written when the count passes [INT_MAX]
    with it; otherwise the whole greeting is written. *)
Lemma built_short (s : list ascii) :
  (Z.of_nat (length s) + 7 <= INT_MAX)%Z -> built s = greeting s.
Proof.
  intros H. unfold built, greeting. cbn [produce].
  rewrite decide_True by (unfold INT_MAX; simpl; lia).
  rewrite decide_True by (unfold INT_MAX in *; simpl; lia).
  destruct (decide _); by rewrite app_nil_r.
Qed.

Lemma built_long (s : list ascii) :
  (INT_MAX < Z.of_nat (length s) + 7)%Z -> built s = chars "Hello, " ++ s.
Proof.
  intros H. unfold built. cbn [produce].
  rewrite decide_True by (unfold INT_MAX; simpl; lia).
  rewrite decide_False by (unfold INT_MAX in *; simpl; lia).
  by rewrite app_nil_r.
Qed.

Lemma built_cases (s : list ascii) :
  built s = greeting s \/ built s = chars "Hello, " ++ s.
Proof.
  destruct (decide (Z.of_nat (length s) + 7 <= INT_MAX)%Z).
  - left. by apply built_short.
  - right. apply built_long. lia.
Qed.

Lemma built_no_NUL (s : list ascii) : NUL ∉ s -> NUL ∉ built s.
Proof.
  intros Hs. destruct (built_cases s) as [-> | ->].
  - by apply greeting_no_NUL.
  - rewrite not_elem_of_app. split; [|done].
    by apply (bool_decide_unpack _); vm_compute.
Qed.

Lemma length_built (s : list ascii) :
  (length (built s) <= length (greeting s))%nat.
Proof.
  rewrite length_greeting.
  destruct (built_cases s) as [-> | ->].
  - rewrite length_greeting. lia.
  - rewrite length_app. simpl. lia.
Qed.

Lemma within_int_built (s : list ascii) :
  within_int s -> built s = greeting s.
Proof. unfold within_int. intros H. apply built_short. lia. Qed.

Lemma within_int_line (s : list ascii) :
  within_int s ->
  produce 0 [greeting s; [newline]] = greeting s ++ [newline].
Proof.
  unfold within_int. intros H. cbn [produce].
  rewrite decide_True by (rewrite length_greeting; lia).
  destruct (decide _); by rewrite app_nil_r.
Qed.

Lemma long_line (s : list ascii) :
  (INT_MAX < Z.of_nat (length s) + 7)%Z ->
  produce 0 [chars "Hello, " ++ s; [newline]] = chars "Hello, " ++ s.
Proof.
  intros H. cbn [produce].
  rewrite decide_False by (rewrite length_app; simpl; lia).
  by rewrite app_nil_r.
Qed.

Section PlatformFacts.

Variable size_bits : Z.
Variable malloc_ok : list (list cell) -> Z -> bool.

Lemma addressable_bound (s : list ascii) :
  addressable size_bits s -> (Z.of_nat (length s) + 36 <= 2 ^ size_bits)%Z.
Proof.
  unfold addressable. rewrite length_app. simpl. lia.
Qed.

Lemma size_t_small (x : Z) :
  (0 <= x < 2 ^ size_bits)%Z -> size_t size_bits x = x.
Proof. intros H. unfold size_t. by apply Z.mod_small. Qed.

(** The size [microsandbox_greet] computes for a name of [n] characters. *)
Lemma total_length_exact (n : nat) :
  (Z.of_nat n + 36 <= 2 ^ size_bits)%Z ->
  size_t size_bits
    (size_t size_bits
       (size_t size_bits (size_t size_bits 7 + size_t size_bits (Z.of_nat n))
        + size_t size_bits 26) + 1)
  = (Z.of_nat n + 34)%Z.
Proof.
  intros H.
  rewrite (size_t_small 7), (size_t_small 26), (size_t_small (Z.of_nat n))
    by lia.
  rewrite (size_t_small (7 + Z.of_nat n)) by lia.
  rewrite (size_t_small (7 + Z.of_nat n + 26)) by lia.
  rewrite size_t_small; lia.
Qed.

(** What a call does, for a name that is a C string of any length: one
    request to the allocator for [length s + 34] bytes; when it is refused,
    nothing else; when it is served, the new block starts with what
    [sprintf] built and its terminator, the cells after it stay
    indeterminate, and what [printf] produces goes to the standard
    output. *)
Lemma microsandbox_greet_run_any (name : ptr) (w : world) (s : list ascii) :
  cstring_at w name = Some s ->
  addressable size_bits s ->
  microsandbox_greet size_bits malloc_ok name w =
  if malloc_ok (heap w) (Z.of_nat (length s) + 34)
  then Some (Dyn (length (heap w)) 0,
             World (heap w
                    ++ [(Some <$> (built s ++ [NUL]))
                        ++ replicate (length (greeting s)
                                      - length (built s)) None])
                   (stdout w ++ produce 0 [built s; [newline]]))
  else Some (NULL, w).
Proof.
  intros Hname Haddr. apply addressable_bound in Haddr.
  assert (Hnul : NUL ∉ s) by (by eapply cstring_at_no_NUL).
  pose proof (length_built s) as Hlen.
  pose proof (length_greeting s) as Hg.
  unfold microsandbox_greet, mbind, C_bind, strlen.
  change (cstring_at w (Rodata "Hello, " 0)) with (Some (chars "Hello, ")).
  cbv beta iota. rewrite Hname. cbv beta iota.
  change (cstring_at w (Rodata "! Welcome to Microsandbox!" 0))
    with (Some (chars "! Welcome to Microsandbox!")).
  cbv beta iota.
  change (Z.of_nat (length (chars "Hello, "))) with 7%Z.
  change (Z.of_nat (length (chars "! Welcome to Microsandbox!"))) with 26%Z.
  rewrite total_length_exact by done.
  unfold malloc.
  destruct (malloc_ok (heap w) (Z.of_nat (length s) + 34)); [|done].
  cbv beta iota. cbn [is_null]. cbv beta iota.
  set (w1 := World _ _).
  unfold sprintf_sss.
  change (cstring_at w1 (Rodata "Hello, " 0)) with (Some (chars "Hello, ")).
  change (cstring_at w1 (Rodata "! Welcome to Microsandbox!" 0))
    with (Some (chars "! Welcome to Microsandbox!")).
  assert (Hname1 : cstring_at w1 name = Some s)
    by (by apply cstring_at_grow).
  rewrite Hname1. cbv beta iota.
  fold (built s).
  unfold store. subst w1. cbn [heap stdout].
  rewrite list_lookup_middle by done.
  rewrite length_replicate.
  rewrite decide_True
    by (rewrite length_app; change (length [NUL]) with 1%nat; lia).
  rewrite take_0, app_nil_l, drop_replicate.
  rewrite insert_app_r_alt, Nat.sub_diag by done. cbn [list_insert insert].
  replace (Z.to_nat (Z.of_nat (length s) + 34) - (0 + length (built s ++ [NUL])))%nat
    with (length (greeting s) - length (built s))%nat
    by (rewrite length_app; change (length [NUL]) with 1%nat; lia).
  unfold printf_s_nl.
  rewrite cstring_at_block_padded by (by apply built_no_NUL).
  reflexivity.
Qed.

(** The same for a name whose greeting the library can count: the block
    holds exactly the greeting and its terminator, and the greeting and a
    newline go to the standard output. *)
Lemma microsandbox_greet_run (name : ptr) (w : world) (s : list ascii) :
  cstring_at w name = Some s ->
  addressable size_bits s ->
  within_int s ->
  microsandbox_greet size_bits malloc_ok name w =
  if malloc_ok (heap w) (Z.of_nat (length s) + 34)
  then Some (Dyn (length (heap w)) 0,
             World (heap w ++ [Some <$> (greeting s ++ [NUL])])
                   (stdout w ++ greeting s ++ [newline]))
  else Some (NULL, w).
Proof.
  intros Hname Haddr Hfit.
  rewrite (microsandbox_greet_run_any _ _ _ Hname Haddr).
  rewrite (within_int_built _ Hfit), (within_int_line _ Hfit).
  by rewrite Nat.sub_diag, app_nil_r.
Qed.

(** And for a name with which the count passes [INT_MAX]: [sprintf] stops
    after the name, the 26 cells meant for the rest are never written, and
    [printf] stops after the string. *)
Lemma microsandbox_greet_run_long (name : ptr) (w : world) (s : list ascii) :
  cstring_at w name = Some s ->
  addressable size_bits s ->
  (INT_MAX < Z.of_nat (length s) + 7)%Z ->
  microsandbox_greet size_bits malloc_ok name w =
  if malloc_ok (heap w) (Z.of_nat (length s) + 34)
  then Some (Dyn (length (heap w)) 0,
             World (heap w
                    ++ [(Some <$> ((chars "Hello, " ++ s) ++ [NUL]))
                        ++ replicate 26 None])
                   (stdout w ++ chars "Hello, " ++ s))
  else Some (NULL, w).
Proof.
  intros Hname Haddr Hlong.
  rewrite (microsandbox_greet_run_any _ _ _ Hname Haddr).
  rewrite (built_long _ Hlong), (long_line _ Hlong).
  replace (length (greeting s) - length (chars "Hello, " ++ s))%nat
    with 26%nat by (rewrite length_greeting, length_app; simpl; lia).
  reflexivity.
Qed.

End PlatformFacts.

(** ** Facts about [std::string] concatenation *)

Lemma string_app_assoc (a b c : string) : (a +:+ b) +:+ c = a +:+ b +:+ c.
Proof.
  induction a as [|x a IH]; [done|].
  change (String x ((a +:+ b) +:+ c) = String x (a +:+ b +:+ c)).
  by rewrite IH.
Qed.

Lemma string_prefix_app (a b : string) : String.prefix a (a +:+ b) = true.
Proof.
  induction a as [|x a IH]; [by destruct b|].
  change (String.prefix (String x a) (String x (a +:+ b)) = true).
  cbn [String.prefix]. by destruct (ascii_dec x x).
Qed.

Lemma greet_message (name cout : string) :
  (microsandbox.greet name cout).1 = greeting_text name.
Proof. unfold microsandbox.greet, greeting_text. cbn [fst]. apply string_app_assoc. Qed.

Lemma chars_greeting_text (name : string) :
  chars (greeting_text name) = greeting (chars name).
Proof. unfold greeting_text, greeting. by rewrite !chars_app. Qed.

(** ** The sample worlds *)

Lemma within_int_Test : within_int (chars "Test").
Proof. unfold within_int, INT_MAX. simpl. lia. Qed.

Lemma length_long_name : Z.of_nat (length long_name) = 2147483641%Z.
Proof. unfold long_name. rewrite length_replicate. apply Z2Nat.id. lia. Qed.

Lemma long_name_no_NUL : NUL ∉ long_name.
Proof.
  unfold long_name. rewrite elem_of_replicate. intros [H _]. discriminate H.
Qed.

#[global] Opaque long_name.

Lemma long_name_in_long_world :
  cstring_at long_world (Dyn 0 0) = Some long_name.
Proof. exact (cstring_at_block [] [] long_name long_name_no_NUL). Qed.

Lemma long_name_addressable : addressable 64 long_name.
Proof.
  unfold addressable. rewrite length_app, Nat2Z.inj_add, length_long_name.
  change (Z.of_nat (length [NUL])) with 1%Z.
  change (Z.of_nat (length (literal_array "Hello, "))) with 8%Z.
  change (Z.of_nat (length (literal_array "! Welcome to Microsandbox!")))
    with 27%Z.
  change (2 ^ 64)%Z with 18446744073709551616%Z. lia.
Qed.

Lemma long_name_past_INT_MAX :
  (INT_MAX < Z.of_nat (length long_name) + 7)%Z.
Proof. rewrite length_long_name. unfold INT_MAX. lia. Qed.

(** What a served call on the long name gives: the buffer holds
    ["Hello, "] and the name, without the rest of the greeting. *)
Lemma long_name_run :
  microsandbox_greet 64 always_serves (Dyn 0 0) long_world
  = Some (Dyn 1 0,
          World (heap long_world
                 ++ [(Some <$> ((chars "Hello, " ++ long_name) ++ [NUL]))
                     ++ replicate 26 None])
                (stdout long_world ++ chars "Hello, " ++ long_name)).
Proof.
  exact (microsandbox_greet_run_long 64 always_serves (Dyn 0 0) long_world
           long_name long_name_in_long_world long_name_addressable
           long_name_past_INT_MAX).
Qed.

Lemma long_name_result :
  cstring_at
    (World (heap long_world
            ++ [(Some <$> ((chars "Hello, " ++ long_name) ++ [NUL]))
                ++ replicate 26 None])
           (stdout long_world ++ chars "Hello, " ++ long_name))
    (Dyn 1 0)
  = Some (chars "Hello, " ++ long_name).
Proof.
  apply (cstring_at_block_padded (heap long_world)).
  rewrite not_elem_of_app. split; [|apply long_name_no_NUL].
  by apply (bool_decide_unpack _); vm_compute.
Qed.

Lemma cut_short_is_no_greeting (s : list ascii) :
  chars "Hello, " ++ s <> greeting s.
Proof.
  unfold greeting. intros H. apply (f_equal length) in H.
  rewrite !length_app in H. simpl in H. lia.
Qed.

(** ** Running the sources on the tests' input *)

Example greet_Test_c :
  (r ← microsandbox_greet 64 always_serves test_name fresh_world;
   cstring_at r.2 r.1)
  = Some (chars "Hello, Test! Welcome to Microsandbox!").
Proof. reflexivity. Qed.

Example greet_Test_cpp :
  microsandbox.greet "Test" ""
  = ("Hello, Test! Welcome to Microsandbox!",
     "Hello, Test! Welcome to Microsandbox!" +:+ microsandbox.endl).
Proof. reflexivity. Qed.

(** The name may sit anywhere in a heap object; what follows its terminator
    is not read. *)
Example greet_inside_object :
  let w := World [[None; Some "a"%char; Some NUL; Some "b"%char]] [] in
  (r ← microsandbox_greet 64 always_serves (Dyn 0 1) w; cstring_at r.2 r.1)
  = Some (chars "Hello, a! Welcome to Microsandbox!")
  /\ microsandbox_greet 64 always_serves (Dyn 0 0) w = None.
Proof. split; reflexivity. Qed.

(** An array with a NUL inside holds a shorter C string: the C binding
    greets the characters before the first NUL.  A [std::string] carries
    its length, and the C++ binding greets all of its characters; such a
    string is not the C string of any array. *)
Example name_ends_at_first_NUL :
  let n := String "a" (String NUL (String "b" EmptyString)) in
  cstring_at fresh_world (Rodata n 0) = Some (chars "a")
  /\ (r ← microsandbox_greet 64 always_serves (Rodata n 0) fresh_world;
      cstring_at r.2 r.1)
     = Some (chars "Hello, a! Welcome to Microsandbox!")
  /\ String.length (microsandbox.greet n "").1 = 36.
Proof. split_and!; reflexivity. Qed.

(** ** Properties of the greeter *)

(** C1 fails on the C binding.  On a name of [INT_MAX - 6] characters a
    served call returns a buffer that holds ["Hello, "] and the name and
    stops there: [sprintf] fails once its count passes [INT_MAX] and its
    result is not looked at.  The C++ binding returns the whole greeting
    for the same characters. *)
Lemma long_name_greeting_is_cut_short :
  cstring_at long_world (Dyn 0 0) = Some long_name
  /\ addressable 64 long_name
  /\ (exists p w',
         microsandbox_greet 64 always_serves (Dyn 0 0) long_world
         = Some (p, w')
         /\ p <> NULL
         /\ cstring_at w' p = Some (chars "Hello, " ++ long_name)
         /\ cstring_at w' p <> Some (greeting long_name))
  /\ chars (microsandbox.greet (String.string_of_list_ascii long_name) "").1
     = greeting long_name.
Proof.
  split; [apply long_name_in_long_world|].
  split; [apply long_name_addressable|]. split.
  - eexists _, _. split; [apply long_name_run|]. split; [discriminate|].
    rewrite long_name_result. split; [reflexivity|].
    intros H. apply (cut_short_is_no_greeting long_name).
    apply (inj Some). exact H.
  - rewrite greet_message, chars_greeting_text. unfold chars at 1.
    by rewrite String.list_ascii_of_string_of_list_ascii.
Qed.

(** C2 fails on the C binding.  On the same name the returned string ends
    with the name, so ["Hello, " + name + "!"] is not a prefix of it. *)
Lemma long_name_result_lacks_prefix :
  exists p w' r,
    microsandbox_greet 64 always_serves (Dyn 0 0) long_world = Some (p, w')
    /\ cstring_at w' p = Some r
    /\ ~ (chars "Hello, " ++ long_name ++ chars "!") `prefix_of` r.
Proof.
  eexists _, _, _. split; [apply long_name_run|].
  split; [apply long_name_result|].
  intros Hpre. apply prefix_length in Hpre.
  rewrite !length_app in Hpre. simpl in Hpre. lia.
Qed.

(** C3 fails on the C binding.  On the same name the allocation succeeds
    and the result is not null, yet the result is not the greeting: the
    failure of [sprintf] is a failure besides that of the allocation, and
    the function does not signal it. *)
Lemma long_name_failure_is_not_signalled :
  exists p w',
    microsandbox_greet 64 always_serves (Dyn 0 0) long_world = Some (p, w')
    /\ malloc always_serves (Z.of_nat (length (greeting long_name ++ [NUL])))
         long_world
       <> Some (NULL, long_world)
    /\ p <> NULL
    /\ cstring_at w' p <> Some (greeting long_name).
Proof.
  eexists _, _. split; [apply long_name_run|].
  split; [unfold malloc; discriminate|]. split; [discriminate|].
  rewrite long_name_result.
  intros H. apply (cut_short_is_no_greeting long_name).
  apply (inj Some). exact H.
Qed.

(** C4, as stated, fails: a call of the C binding whose allocation is
    refused returns before [printf] and leaves the standard output as it
    was. *)
Lemma refused_allocation_prints_no_line :
  cstring_at fresh_world test_name = Some (chars "Test")
  /\ exists w',
       microsandbox_greet 64 never_serves test_name fresh_world
       = Some (NULL, w')
       /\ stdout w' = []
       /\ stdout w'
          <> stdout fresh_world
             ++ chars "Hello, Test! Welcome to Microsandbox!" ++ [newline].
Proof.
  split; [reflexivity|]. exists fresh_world.
  split_and!; [reflexivity|reflexivity|discriminate].
Qed.

(** C4, amended.  For every input string [name] whose greeting line the
    library can count in an [int], a call of [greet] whose allocation
    succeeds appends to the standard output exactly one line, the returned
    string followed by a newline, and changes nothing else: in the C
    binding the heap gains the returned buffer and keeps every other block;
    in the C++ binding only [std::cout] changes.  A C call whose allocation
    is refused writes nothing. *)
Theorem served_call_prints_one_line
    (size_bits : Z) (malloc_ok : list (list cell) -> Z -> bool)
    (name : ptr) (w : world) (s : list ascii) (n cout : string)
    (Hname : cstring_at w name = Some s)
    (Haddr : addressable size_bits s)
    (Hfit : within_int s) :
  (exists p w',
      microsandbox_greet size_bits malloc_ok name w = Some (p, w')
      /\ (malloc_ok (heap w) (Z.of_nat (length s) + 34)%Z = true ->
          cstring_at w' p = Some (greeting s)
          /\ stdout w' = stdout w ++ greeting s ++ [newline]
          /\ heap w' = heap w ++ [Some <$> (greeting s ++ [NUL])])
      /\ (malloc_ok (heap w) (Z.of_nat (length s) + 34)%Z = false ->
          p = NULL /\ w' = w))
  /\ (microsandbox.greet n cout).2
     = cout +:+ (microsandbox.greet n cout).1 +:+ microsandbox.endl
  /\ (microsandbox.greet n cout).1 = greeting_text n.
Proof.
  split; [|split; [|apply greet_message]].
  - rewrite (microsandbox_greet_run _ _ _ _ _ Hname Haddr Hfit).
    destruct (malloc_ok (heap w) (Z.of_nat (length s) + 34)%Z).
    + eexists _, _. split_and!; [reflexivity| |done].
      intros _. split_and!; [|done|done].
      apply cstring_at_block, greeting_no_NUL.
      by eapply cstring_at_no_NUL.
    + eexists _, _. split_and!; [reflexivity|done|done].
  - unfold microsandbox.greet. cbn [fst snd]. apply string_app_assoc.
Qed.

Lemma served_call_prints_one_line_witness :
  cstring_at fresh_world test_name = Some (chars "Test")
  /\ addressable 64 (chars "Test")
  /\ within_int (chars "Test")
  /\ (exists p w',
         microsandbox_greet 64 always_serves test_name fresh_world
         = Some (p, w')
         /\ (always_serves (heap fresh_world)
               (Z.of_nat (length (chars "Test")) + 34)%Z = true ->
             cstring_at w' p = Some (greeting (chars "Test"))
             /\ stdout w'
                = stdout fresh_world ++ greeting (chars "Test") ++ [newline]
             /\ heap w'
                = heap fresh_world
                  ++ [Some <$> (greeting (chars "Test") ++ [NUL])])
         /\ (always_serves (heap fresh_world)
               (Z.of_nat (length (chars "Test")) + 34)%Z = false ->
             p = NULL /\ w' = fresh_world))
  /\ (microsandbox.greet "Test" "").2
     = "" +:+ (microsandbox.greet "Test" "").1 +:+ microsandbox.endl
  /\ (microsandbox.greet "Test" "").1 = greeting_text "Test".
Proof.
  assert (Haddr : addressable 64 (chars "Test"))
    by (unfold addressable; simpl; lia).
  assert (Hfit : within_int (chars "Test"))
    by (unfold within_int, INT_MAX; simpl; lia).
  split; [reflexivity|]. split; [exact Haddr|]. split; [exact Hfit|].
  exact (served_call_prints_one_line 64 always_serves test_name fresh_world
           (chars "Test") "Test" "" eq_refl Haddr Hfit).
Defined.

(** C5, as stated, fails: a [std::string] may hold a NUL, and the C
    binding, passed the array of its characters, reads the name up to that
    NUL only.  For ["a\0b"] it returns the greeting of ["a"] and the C++
    binding the greeting of all three characters. *)
Lemma embedded_NUL_bindings_differ :
  let n := String "a" (String NUL (String "b" EmptyString)) in
  cells_at fresh_world (Rodata n 0) = Some (Some <$> (chars n ++ [NUL]))
  /\ exists p w',
       microsandbox_greet 64 always_serves (Rodata n 0) fresh_world
       = Some (p, w')
       /\ p <> NULL
       /\ cstring_at w' p = Some (chars "Hello, a! Welcome to Microsandbox!")
       /\ cstring_at w' p <> Some (chars (microsandbox.greet n "").1).
Proof.
  intros n. split; [reflexivity|].
  eexists _, _. split; [vm_compute; reflexivity|].
  split_and!; [discriminate|reflexivity|discriminate].
Qed.

(** C5, amended.  The two bindings agree on every name that is a C string
    and whose greeting line the library can count in an [int]: when the C
    binding is passed the characters of the [std::string] the C++ binding
    is passed, and the allocation succeeds, the character sequence the C
    binding returns is the one of the string the C++ binding returns. *)
Theorem c_and_cpp_bindings_agree
    (size_bits : Z) (malloc_ok : list (list cell) -> Z -> bool)
    (name : ptr) (w : world) (n cout : string)
    (Hname : cstring_at w name = Some (chars n))
    (Haddr : addressable size_bits (chars n))
    (Hfit : within_int (chars n))
    (Halloc : malloc_ok (heap w) (Z.of_nat (length (chars n)) + 34)%Z = true) :
  exists p w',
    microsandbox_greet size_bits malloc_ok name w = Some (p, w')
    /\ p <> NULL
    /\ cstring_at w' p = Some (chars (microsandbox.greet n cout).1).
Proof.
  rewrite (microsandbox_greet_run _ _ _ _ _ Hname Haddr Hfit), Halloc.
  eexists _, _. split_and!; [reflexivity|done|].
  rewrite greet_message, chars_greeting_text.
  apply cstring_at_block, greeting_no_NUL.
  by eapply cstring_at_no_NUL.
Qed.

Lemma c_and_cpp_bindings_agree_witness :
  cstring_at fresh_world test_name = Some (chars "Test")
  /\ addressable 64 (chars "Test")
  /\ within_int (chars "Test")
  /\ exists p w',
       microsandbox_greet 64 always_serves test_name fresh_world
       = Some (p, w')
       /\ p <> NULL
       /\ cstring_at w' p = Some (chars (microsandbox.greet "Test" "").1).
Proof.
  assert (Haddr : addressable 64 (chars "Test"))
    by (unfold addressable; simpl; lia).
  assert (Hfit : within_int (chars "Test"))
    by (unfold within_int, INT_MAX; simpl; lia).
  split; [reflexivity|]. split; [exact Haddr|]. split; [exact Hfit|].
  exact (c_and_cpp_bindings_agree 64 always_serves test_name fresh_world
           "Test" "" eq_refl Haddr Hfit eq_refl).
Defined.

(** C6. [greet] applied to the empty string returns exactly
    ["Hello, ! Welcome to Microsandbox!"], in both bindings. *)
Theorem greet_empty_name
    (size_bits : Z) (malloc_ok : list (list cell) -> Z -> bool)
    (name : ptr) (w : world) (cout : string)
    (Hname : cstring_at w name = Some [])
    (Haddr : addressable size_bits [])
    (Halloc : malloc_ok (heap w) 34%Z = true) :
  (exists p w',
      microsandbox_greet size_bits malloc_ok name w = Some (p, w')
      /\ p <> NULL
      /\ cstring_at w' p = Some (chars "Hello, ! Welcome to Microsandbox!"))
  /\ (microsandbox.greet "" cout).1 = "Hello, ! Welcome to Microsandbox!".
Proof.
  split; [|reflexivity].
  assert (Hfit : within_int []) by (unfold within_int, INT_MAX; simpl; lia).
  rewrite (microsandbox_greet_run _ _ _ _ _ Hname Haddr Hfit).
  change (Z.of_nat (length []) + 34)%Z with 34%Z. rewrite Halloc.
  eexists _, _. split_and!; [reflexivity|done|].
  by apply (cstring_at_block _ _ (greeting [])), greeting_no_NUL, not_elem_of_nil.
Qed.

Lemma greet_empty_name_witness :
  cstring_at fresh_world (Rodata "" 0) = Some []
  /\ addressable 64 []
  /\ (exists p w',
         microsandbox_greet 64 always_serves (Rodata "" 0) fresh_world
         = Some (p, w')
         /\ p <> NULL
         /\ cstring_at w' p
            = Some (chars "Hello, ! Welcome to Microsandbox!"))
  /\ (microsandbox.greet "" "").1 = "Hello, ! Welcome to Microsandbox!".
Proof.
  assert (Haddr : addressable 64 [])
    by (unfold addressable; simpl; lia).
  split; [reflexivity|]. split; [exact Haddr|].
  exact (greet_empty_name 64 always_serves (Rodata "" 0) fresh_world ""
           eq_refl Haddr eq_refl).
Defined.

(** C7. [greet] is deterministic in its return value.  In the C binding,
    two successful calls in a row on the same name return two different
    buffers that hold equal strings, and the second call leaves the first
    result as it was; in the C++ binding the returned string does not depend
    on the state of the stream. *)
Theorem greet_twice_equal_strings
    (size_bits : Z) (malloc_ok : list (list cell) -> Z -> bool)
    (name : ptr) (w w1 w2 : world) (p1 p2 : ptr) (s : list ascii)
    (n cout1 cout2 : string)
    (Hname : cstring_at w name = Some s)
    (Haddr : addressable size_bits s)
    (Hfirst : microsandbox_greet size_bits malloc_ok name w = Some (p1, w1))
    (Hsecond : microsandbox_greet size_bits malloc_ok name w1 = Some (p2, w2))
    (Hp1 : p1 <> NULL)
    (Hp2 : p2 <> NULL) :
  (exists r,
      cstring_at w1 p1 = Some r
      /\ cstring_at w2 p2 = Some r
      /\ cstring_at w2 p1 = Some r
      /\ p1 <> p2)
  /\ (microsandbox.greet n cout1).1 = (microsandbox.greet n cout2).1.
Proof.
  split; [|by rewrite !greet_message].
  assert (Hnul : NUL ∉ built s)
    by (by eapply built_no_NUL, cstring_at_no_NUL).
  rewrite (microsandbox_greet_run_any _ _ _ _ _ Hname Haddr) in Hfirst.
  destruct (malloc_ok (heap w) (Z.of_nat (length s) + 34)%Z);
    simplify_eq.
  set (w1 := World _ _) in *.
  assert (Hname1 : cstring_at w1 name = Some s) by (by apply cstring_at_grow).
  assert (Hr1 : cstring_at w1 (Dyn (length (heap w)) 0) = Some (built s))
    by (by apply cstring_at_block_padded).
  rewrite (microsandbox_greet_run_any _ _ _ _ _ Hname1 Haddr) in Hsecond.
  destruct (malloc_ok (heap w1) (Z.of_nat (length s) + 34)%Z);
    simplify_eq.
  exists (built s). split_and!.
  - done.
  - by apply cstring_at_block_padded.
  - by apply cstring_at_grow.
  - subst w1. cbn [heap]. rewrite length_app. simpl. intros [=]. lia.
Qed.

Lemma greet_twice_equal_strings_witness :
  exists p1 w1 p2 w2,
    cstring_at fresh_world test_name = Some (chars "Test")
    /\ addressable 64 (chars "Test")
    /\ microsandbox_greet 64 always_serves test_name fresh_world
       = Some (p1, w1)
    /\ microsandbox_greet 64 always_serves test_name w1 = Some (p2, w2)
    /\ p1 <> NULL
    /\ p2 <> NULL
    /\ (exists r,
           cstring_at w1 p1 = Some r
           /\ cstring_at w2 p2 = Some r
           /\ cstring_at w2 p1 = Some r
           /\ p1 <> p2)
    /\ (microsandbox.greet "Test" "").1
       = (microsandbox.greet "Test" "earlier output").1.
Proof.
  assert (Haddr : addressable 64 (chars "Test"))
    by (unfold addressable; simpl; lia).
  eexists _, _, _, _.
  split; [reflexivity|]. split; [exact Haddr|].
  split; [vm_compute; reflexivity|]. split; [vm_compute; reflexivity|].
  split; [discriminate|]. split; [discriminate|].
  exact (greet_twice_equal_strings 64 always_serves test_name fresh_world
           _ _ _ _ (chars "Test") "Test" "" "earlier output"
           eq_refl Haddr eq_refl eq_refl
           ltac:(discriminate) ltac:(discriminate)).
Defined.

(** C8 fails on the C binding.  The long name is a sequence of characters
    without NUL, stored with its terminator, and the allocation is served;
    yet the call does not return the greeting and does not print the
    greeting line: past [INT_MAX - 7] characters the length of the name
    does restrict what the function delivers. *)
Lemma long_name_gets_no_greeting :
  (NUL ∉ long_name)
  /\ cells_at long_world (Dyn 0 0)
     = Some ((Some <$> long_name) ++ Some NUL :: [])
  /\ always_serves (heap long_world) (Z.of_nat (length long_name) + 34)%Z
     = true
  /\ exists p w',
       microsandbox_greet 64 always_serves (Dyn 0 0) long_world
       = Some (p, w')
       /\ p <> NULL
       /\ cstring_at w' p <> Some (greeting long_name)
       /\ stdout w' <> stdout long_world ++ greeting long_name ++ [newline].
Proof.
  split; [apply long_name_no_NUL|].
  split; [unfold long_world; cbn [cells_at heap]; by rewrite fmap_app|].
  split; [reflexivity|].
  eexists _, _. split; [apply long_name_run|]. split; [discriminate|].
  rewrite long_name_result. split.
  - intros H. apply (cut_short_is_no_greeting long_name).
    apply (inj Some). exact H.
  - cbn [stdout]. intros H. apply app_inv_head in H.
    apply (f_equal length) in H. unfold greeting in H.
    rewrite !length_app in H. cbn [length] in H.
    change (length (chars "Hello, ")) with 7%nat in H.
    change (length (chars "! Welcome to Microsandbox!")) with 26%nat in H.
    lia.
Qed.

(** C9. In the C binding, a call whose allocation fails returns the null
    pointer and leaves the world as it was: nothing is written to the
    standard output and no block is added or changed. *)
Theorem refused_allocation_is_silent
    (size_bits : Z) (malloc_ok : list (list cell) -> Z -> bool)
    (name : ptr) (w : world) (s : list ascii)
    (Hname : cstring_at w name = Some s)
    (Haddr : addressable size_bits s)
    (Hrefused : malloc_ok (heap w) (Z.of_nat (length s) + 34)%Z = false) :
  exists w',
    microsandbox_greet size_bits malloc_ok name w = Some (NULL, w')
    /\ stdout w' = stdout w
    /\ heap w' = heap w.
Proof.
  rewrite (microsandbox_greet_run_any _ _ _ _ _ Hname Haddr), Hrefused.
  by exists w.
Qed.

Lemma refused_allocation_is_silent_witness :
  cstring_at fresh_world test_name = Some (chars "Test")
  /\ addressable 64 (chars "Test")
  /\ exists w',
       microsandbox_greet 64 never_serves test_name fresh_world
       = Some (NULL, w')
       /\ stdout w' = stdout fresh_world
       /\ heap w' = heap fresh_world.
Proof.
  assert (Haddr : addressable 64 (chars "Test"))
    by (unfold addressable; simpl; lia).
  split; [reflexivity|]. split; [exact Haddr|].
  exact (refused_allocation_is_silent 64 never_serves test_name fresh_world
           (chars "Test") eq_refl Haddr eq_refl).
Defined.

(** C10 fails on the C binding.  On the long name the size asked of
    [malloc] is [strlen(name) + 34] as claimed, but the returned string
    has length [strlen(name) + 7], not [strlen(name) + 33]: [sprintf]
    stopped after the name, and the last 26 cells of the buffer were never
    written. *)
Lemma long_name_buffer_is_not_filled :
  exists w',
    microsandbox_greet 64 always_serves (Dyn 0 0) long_world
    = Some (Dyn 1 0, w')
    /\ heap w' !! 1%nat
       = Some ((Some <$> ((chars "Hello, " ++ long_name) ++ [NUL]))
               ++ replicate 26 None)
    /\ strlen 64 (Dyn 1 0) w'
       = Some ((Z.of_nat (length long_name) + 7)%Z, w')
    /\ strlen 64 (Dyn 1 0) w'
       <> Some ((Z.of_nat (length long_name) + 33)%Z, w').
Proof.
  eexists. split; [apply long_name_run|].
  assert (Hlen : strlen 64 (Dyn 1 0)
                   (World (heap long_world
                           ++ [(Some <$> ((chars "Hello, " ++ long_name)
                                          ++ [NUL]))
                               ++ replicate 26 None])
                          (stdout long_world ++ chars "Hello, " ++ long_name))
                 = Some ((Z.of_nat (length long_name) + 7)%Z,
                         World (heap long_world
                                ++ [(Some <$> ((chars "Hello, " ++ long_name)
                                               ++ [NUL]))
                                    ++ replicate 26 None])
                               (stdout long_world
                                ++ chars "Hello, " ++ long_name))).
  { unfold strlen. rewrite long_name_result.
    rewrite length_app, Nat2Z.inj_add.
    change (Z.of_nat (length (chars "Hello, "))) with 7%Z.
    rewrite size_t_small; [by rewrite Z.add_comm|].
    rewrite length_long_name.
    change (2 ^ 64)%Z with 18446744073709551616%Z. lia. }
  split; [exact (list_lookup_middle (heap long_world) [] _ 1 eq_refl)|].
  split; [exact Hlen|].
  rewrite Hlen. intros H. apply (inj Some) in H.
  apply (f_equal fst) in H. cbn [fst] in H. lia.
Qed.

(** ** Further properties of the C binding *)








Lemma greeting_inj (s t : list ascii) : greeting s = greeting t -> s = t.
Proof.
  unfold greeting. intros H.
  apply app_inv_head in H. by apply app_inv_tail in H.
Qed.

Lemma chars_inj (a b : string) : chars a = chars b -> a = b.
Proof.
  unfold chars. intros H.
  rewrite <- (String.string_of_list_ascii_of_string a).
  rewrite <- (String.string_of_list_ascii_of_string b).
  by rewrite H.
Qed.

(** X4. The name can be read back from the greeting: in either binding,
    calls that return equal strings were passed equal names, for names
    whose greeting line the library can count in an [int]. *)
Theorem greet_injective
    (size_bits : Z) (malloc_ok : list (list cell) -> Z -> bool)
    (name1 name2 : ptr) (w1 w2 : world) (s1 s2 : list ascii)
    (n1 n2 cout1 cout2 : string)
    (Hname1 : cstring_at w1 name1 = Some s1)
    (Hname2 : cstring_at w2 name2 = Some s2)
    (Haddr1 : addressable size_bits s1)
    (Haddr2 : addressable size_bits s2)
    (Hfit1 : within_int s1)
    (Hfit2 : within_int s2)
    (Halloc1 : malloc_ok (heap w1) (Z.of_nat (length s1) + 34)%Z = true)
    (Halloc2 : malloc_ok (heap w2) (Z.of_nat (length s2) + 34)%Z = true) :
  (exists p1 w1' p2 w2',
      microsandbox_greet size_bits malloc_ok name1 w1 = Some (p1, w1')
      /\ microsandbox_greet size_bits malloc_ok name2 w2 = Some (p2, w2')
      /\ (cstring_at w1' p1 = cstring_at w2' p2 -> s1 = s2))
  /\ ((microsandbox.greet n1 cout1).1 = (microsandbox.greet n2 cout2).1 ->
      n1 = n2).
Proof.
  split.
  - rewrite (microsandbox_greet_run _ _ _ _ _ Hname1 Haddr1 Hfit1), Halloc1.
    rewrite (microsandbox_greet_run _ _ _ _ _ Hname2 Haddr2 Hfit2), Halloc2.
    eexists _, _, _, _. split_and!; [reflexivity|reflexivity|].
    rewrite !cstring_at_block
      by (by eapply greeting_no_NUL, cstring_at_no_NUL).
    intros H. apply greeting_inj. congruence.
  - rewrite !greet_message. intros H.
    apply (f_equal chars) in H. rewrite !chars_greeting_text in H.
    by apply chars_inj, greeting_inj.
Qed.

Lemma greet_injective_witness :
  cstring_at fresh_world test_name = Some (chars "Test")
  /\ cstring_at fresh_world (Rodata "Ada" 0) = Some (chars "Ada")
  /\ addressable 64 (chars "Test")
  /\ addressable 64 (chars "Ada")
  /\ within_int (chars "Test")
  /\ within_int (chars "Ada")
  /\ (exists p1 w1' p2 w2',
         microsandbox_greet 64 always_serves test_name fresh_world
         = Some (p1, w1')
         /\ microsandbox_greet 64 always_serves (Rodata "Ada" 0) fresh_world
            = Some (p2, w2')
         /\ (cstring_at w1' p1 = cstring_at w2' p2 ->
             chars "Test" = chars "Ada"))
  /\ ((microsandbox.greet "Test" "").1 = (microsandbox.greet "Ada" "").1 ->
      "Test" = "Ada").
Proof.
  assert (Haddr1 : addressable 64 (chars "Test"))
    by (unfold addressable; simpl; lia).
  assert (Haddr2 : addressable 64 (chars "Ada"))
    by (unfold addressable; simpl; lia).
  split; [reflexivity|]. split; [reflexivity|].
  assert (Hfit1 : within_int (chars "Test"))
    by (unfold within_int, INT_MAX; simpl; lia).
  assert (Hfit2 : within_int (chars "Ada"))
    by (unfold within_int, INT_MAX; simpl; lia).
  split; [exact Haddr1|]. split; [exact Haddr2|].
  split; [exact Hfit1|]. split; [exact Hfit2|].
  exact (greet_injective 64 always_serves test_name (Rodata "Ada" 0)
           fresh_world fresh_world (chars "Test") (chars "Ada")
           "Test" "Ada" "" "" eq_refl eq_refl Haddr1 Haddr2 Hfit1 Hfit2
           eq_refl eq_refl).
Defined.

(** X5. Calls compose.  Two served calls of the C binding in a row, on any
    two names whose greeting lines the library can count in an [int],
    append their two lines to the standard output in call
    order and return two different buffers, each of which still holds its
    greeting after the second call.  Two calls of the C++ binding append
    their two lines in call order. *)
Theorem greet_then_greet
    (size_bits : Z) (malloc_ok : list (list cell) -> Z -> bool)
    (name1 name2 : ptr) (w : world) (s1 s2 : list ascii)
    (n1 n2 cout : string)
    (Hname1 : cstring_at w name1 = Some s1)
    (Hname2 : cstring_at w name2 = Some s2)
    (Haddr1 : addressable size_bits s1)
    (Haddr2 : addressable size_bits s2)
    (Hfit1 : within_int s1)
    (Hfit2 : within_int s2)
    (Halloc1 : malloc_ok (heap w) (Z.of_nat (length s1) + 34)%Z = true)
    (Halloc2 : malloc_ok (heap w ++ [Some <$> (greeting s1 ++ [NUL])])
                 (Z.of_nat (length s2) + 34)%Z = true) :
  (exists p1 w1 p2 w2,
      microsandbox_greet size_bits malloc_ok name1 w = Some (p1, w1)
      /\ microsandbox_greet size_bits malloc_ok name2 w1 = Some (p2, w2)
      /\ stdout w2
         = stdout w ++ (greeting s1 ++ [newline])
                    ++ (greeting s2 ++ [newline])
      /\ cstring_at w2 p1 = Some (greeting s1)
      /\ cstring_at w2 p2 = Some (greeting s2)
      /\ p1 <> p2
      /\ length (heap w2) = S (S (length (heap w))))
  /\ (microsandbox.greet n2 (microsandbox.greet n1 cout).2).2
     = cout +:+ (greeting_text n1 +:+ microsandbox.endl)
            +:+ (greeting_text n2 +:+ microsandbox.endl).
Proof.
  split.
  - assert (Hnul1 : NUL ∉ greeting s1)
      by (by eapply greeting_no_NUL, cstring_at_no_NUL).
    assert (Hnul2 : NUL ∉ greeting s2)
      by (by eapply greeting_no_NUL, cstring_at_no_NUL).
    rewrite (microsandbox_greet_run _ _ _ _ _ Hname1 Haddr1 Hfit1), Halloc1.
    eexists _, _. eexists. eexists. split; [reflexivity|].
    set (w1 := World _ _).
    assert (Hname2' : cstring_at w1 name2 = Some s2)
      by (by apply cstring_at_grow).
    rewrite (microsandbox_greet_run _ _ _ _ _ Hname2' Haddr2 Hfit2).
    subst w1. cbn [heap stdout]. rewrite Halloc2.
    split_and!; [reflexivity|..].
    + cbn [stdout]. by rewrite <- !app_assoc.
    + apply (cstring_at_grow
               (World (heap w ++ [Some <$> (greeting s1 ++ [NUL])]) (stdout w))).
      by apply cstring_at_block.
    + by apply cstring_at_block.
    + rewrite length_app. simpl. intros [=]. lia.
    + cbn [heap]. rewrite !length_app. simpl. lia.
  - unfold microsandbox.greet. cbn [fst snd]. fold (greeting_text n1).
    rewrite !(string_app_assoc "Hello, "). fold (greeting_text n1).
    fold (greeting_text n2). by rewrite !string_app_assoc.
Qed.

Lemma greet_then_greet_witness :
  cstring_at fresh_world test_name = Some (chars "Test")
  /\ cstring_at fresh_world (Rodata "Ada" 0) = Some (chars "Ada")
  /\ addressable 64 (chars "Test")
  /\ addressable 64 (chars "Ada")
  /\ within_int (chars "Test")
  /\ within_int (chars "Ada")
  /\ (exists p1 w1 p2 w2,
         microsandbox_greet 64 always_serves test_name fresh_world
         = Some (p1, w1)
         /\ microsandbox_greet 64 always_serves (Rodata "Ada" 0) w1
            = Some (p2, w2)
         /\ stdout w2
            = stdout fresh_world ++ (greeting (chars "Test") ++ [newline])
                                 ++ (greeting (chars "Ada") ++ [newline])
         /\ cstring_at w2 p1 = Some (greeting (chars "Test"))
         /\ cstring_at w2 p2 = Some (greeting (chars "Ada"))
         /\ p1 <> p2
         /\ length (heap w2) = S (S (length (heap fresh_world))))
  /\ (microsandbox.greet "Ada" (microsandbox.greet "Test" "").2).2
     = "" +:+ (greeting_text "Test" +:+ microsandbox.endl)
          +:+ (greeting_text "Ada" +:+ microsandbox.endl).
Proof.
  assert (Haddr1 : addressable 64 (chars "Test"))
    by (unfold addressable; simpl; lia).
  assert (Haddr2 : addressable 64 (chars "Ada"))
    by (unfold addressable; simpl; lia).
  split; [reflexivity|]. split; [reflexivity|].
  assert (Hfit1 : within_int (chars "Test"))
    by (unfold within_int, INT_MAX; simpl; lia).
  assert (Hfit2 : within_int (chars "Ada"))
    by (unfold within_int, INT_MAX; simpl; lia).
  split; [exact Haddr1|]. split; [exact Haddr2|].
  split; [exact Hfit1|]. split; [exact Hfit2|].
  exact (greet_then_greet 64 always_serves test_name (Rodata "Ada" 0)
           fresh_world (chars "Test") (chars "Ada") "Test" "Ada" ""
           eq_refl eq_refl Haddr1 Haddr2 Hfit1 Hfit2 eq_refl eq_refl).
Defined.

(** ** The buffer and its release *)

Lemma fresh_block_not_released (st : process) :
  released_allocated st -> length (heap (mem st)) ∉ released st.
Proof.
  unfold released_allocated. rewrite Forall_forall.
  intros Hrel Hin. specialize (Hrel _ Hin). lia.
Qed.

(** Releasing the block allocated last. *)
Lemma free_last_block (h : list (list cell)) (blk : list cell)
      (out : list ascii) (rel : list nat) :
  length h ∉ rel ->
  free (Dyn (length h) 0) (Process (World (h ++ [blk]) out) rel)
  = Some (tt, Process (World (h ++ [[]]) out) (length h :: rel)).
Proof.
  intros Hfresh. unfold free. cbn [mem heap stdout released].
  rewrite list_lookup_middle by done.
  rewrite decide_False by done.
  by rewrite insert_app_r_alt, Nat.sub_diag by done.
Qed.



(** ** The test programs *)

(** What the C test does, for either answer of the allocator. *)
Lemma test_greet_run
    (size_bits : Z) (malloc_ok : list (list cell) -> Z -> bool)
    (st : process) :
  addressable size_bits (chars "Test") ->
  released_allocated st ->
  test_microsandbox_c.test_greet size_bits malloc_ok st =
  if malloc_ok (heap (mem st)) 38%Z
  then Some (1%Z,
             Process (World (heap (mem st) ++ [[]])
                            (stdout (mem st)
                             ++ chars "Hello, Test! Welcome to Microsandbox!"
                             ++ [newline]))
                     (length (heap (mem st)) :: released st))
  else Some (0%Z, Process (mem st) (released st)).
Proof.
  intros Haddr Hrel.
  pose proof (fresh_block_not_released _ Hrel) as Hfresh.
  unfold test_microsandbox_c.test_greet, mbind, P_bind.
  unfold lift at 1.
  rewrite (microsandbox_greet_run size_bits malloc_ok (Rodata "Test" 0)
             (mem st) (chars "Test") eq_refl Haddr within_int_Test).
  change (Z.of_nat (length (chars "Test")) + 34)%Z with 38%Z.
  destruct (malloc_ok (heap (mem st)) 38%Z); [|reflexivity].
  cbv beta iota. cbn [is_null]. cbv beta iota.
  unfold lift, strstr. cbn [mem released].
  rewrite cstring_at_block
    by (by apply (bool_decide_unpack _); vm_compute).
  change (cstring_at _ (Rodata "Hello, Test!" 0))
    with (Some (chars "Hello, Test!")).
  cbv beta iota.
  change (find_first (chars "Hello, Test!") (greeting (chars "Test")))
    with (Some 0%nat).
  cbv beta iota. cbn [ptr_add is_null Nat.add]. cbv beta iota.
  unfold mret, P_ret. cbv beta iota. rewrite free_last_block by done.
  reflexivity.
Qed.

(** X7. The C test function never has undefined behaviour.  It returns 1
    when the allocation is served and 0 when it is refused; in the first
    case the greeting line has been printed and the buffer is released
    before the return, so that nothing allocated by the test remains
    readable; in the second the process is as it was. *)
Theorem c_test_greet_passes_iff_served
    (size_bits : Z) (malloc_ok : list (list cell) -> Z -> bool)
    (st : process)
    (Haddr : addressable size_bits (chars "Test"))
    (Hrel : released_allocated st) :
  exists r st',
    test_microsandbox_c.test_greet size_bits malloc_ok st = Some (r, st')
    /\ (r = 1%Z <-> malloc_ok (heap (mem st)) 38%Z = true)
    /\ (r = 0%Z <-> malloc_ok (heap (mem st)) 38%Z = false)
    /\ (r = 1%Z ->
        stdout (mem st')
        = stdout (mem st) ++ chars "Hello, Test! Welcome to Microsandbox!"
                          ++ [newline]
        /\ length (heap (mem st)) ∈ released st'
        /\ cstring_at (mem st') (Dyn (length (heap (mem st))) 0) = None)
    /\ (r = 0%Z -> mem st' = mem st /\ released st' = released st)
    /\ released_allocated st'.
Proof.
  rewrite (test_greet_run _ _ _ Haddr Hrel).
  destruct (malloc_ok (heap (mem st)) 38%Z).
  - eexists _, _. split_and!; [reflexivity|done|done| |done|].
    + intros _. cbn [mem stdout released]. split_and!; [done| |].
      * (apply elem_of_cons; by left).
      * unfold cstring_at. cbn [cells_at heap].
        by rewrite list_lookup_middle.
    + unfold released_allocated in *. cbn [mem heap released].
      apply Forall_cons. split; [rewrite length_app; simpl; lia|].
      eapply Forall_impl; [exact Hrel|].
      intros b Hb. cbn beta in Hb. rewrite length_app. simpl. lia.
  - eexists _, _. split_and!; [reflexivity|done|done|done|done|done].
Qed.

Lemma c_test_greet_passes_iff_served_witness :
  addressable 64 (chars "Test")
  /\ released_allocated fresh_process
  /\ exists r st',
       test_microsandbox_c.test_greet 64 always_serves fresh_process
       = Some (r, st')
       /\ (r = 1%Z <-> always_serves (heap (mem fresh_process)) 38%Z = true)
       /\ (r = 0%Z <-> always_serves (heap (mem fresh_process)) 38%Z = false)
       /\ (r = 1%Z ->
           stdout (mem st')
           = stdout (mem fresh_process)
             ++ chars "Hello, Test! Welcome to Microsandbox!" ++ [newline]
           /\ length (heap (mem fresh_process)) ∈ released st'
           /\ cstring_at (mem st')
                (Dyn (length (heap (mem fresh_process))) 0) = None)
       /\ (r = 0%Z ->
           mem st' = mem fresh_process
           /\ released st' = released fresh_process)
       /\ released_allocated st'.
Proof.
  assert (Haddr : addressable 64 (chars "Test"))
    by (unfold addressable; simpl; lia).
  assert (Hrel : released_allocated fresh_process)
    by (unfold released_allocated; simpl; apply Forall_nil_2).
  split; [exact Haddr|]. split; [exact Hrel|].
  exact (c_test_greet_passes_iff_served 64 always_serves fresh_process
           Haddr Hrel).
Defined.

(** X8. The C test program never has undefined behaviour and its exit
    status tells whether the allocation was served: status 0 after the
    greeting line and ["Test passed!"], or status 1 after ["Test failed!"]
    alone, with the heap as it was. *)
Theorem c_test_main_reports
    (size_bits : Z) (malloc_ok : list (list cell) -> Z -> bool)
    (st : process)
    (Haddr : addressable size_bits (chars "Test"))
    (Hrel : released_allocated st) :
  exists status st',
    test_microsandbox_c.main size_bits malloc_ok st = Some (status, st')
    /\ (malloc_ok (heap (mem st)) 38%Z = true ->
        status = 0%Z
        /\ stdout (mem st')
           = stdout (mem st)
             ++ (chars "Hello, Test! Welcome to Microsandbox!" ++ [newline])
             ++ (chars "Test passed!" ++ [newline]))
    /\ (malloc_ok (heap (mem st)) 38%Z = false ->
        status = 1%Z
        /\ stdout (mem st')
           = stdout (mem st) ++ (chars "Test failed!" ++ [newline])
        /\ heap (mem st') = heap (mem st)
        /\ released st' = released st).
Proof.
  unfold test_microsandbox_c.main, mbind, P_bind.
  rewrite (test_greet_run _ _ _ Haddr Hrel).
  destruct (malloc_ok (heap (mem st)) 38%Z).
  - cbv beta iota. change (1 =? 0)%Z with false. cbv beta iota.
    unfold lift, printf_plain. cbn [mem released].
    change (cstring_at _ (Rodata ("Test passed!" +:+ String newline "") 0))
      with (Some (chars "Test passed!" ++ [newline])).
    cbv beta iota.
    rewrite decide_False by (by apply (bool_decide_unpack _); vm_compute).
    eexists _, _. split_and!; [reflexivity| |done].
    intros _. split; [done|]. cbn [mem stdout].
    by rewrite <- !app_assoc.
  - cbv beta iota. change (0 =? 0)%Z with true. cbv beta iota.
    unfold lift, printf_plain. cbn [mem released].
    change (cstring_at _ (Rodata ("Test failed!" +:+ String newline "") 0))
      with (Some (chars "Test failed!" ++ [newline])).
    cbv beta iota.
    rewrite decide_False by (by apply (bool_decide_unpack _); vm_compute).
    eexists _, _. split_and!; [reflexivity|done|].
    intros _. by split_and!.
Qed.

Lemma c_test_main_reports_witness :
  addressable 64 (chars "Test")
  /\ released_allocated fresh_process
  /\ exists status st',
       test_microsandbox_c.main 64 never_serves fresh_process
       = Some (status, st')
       /\ (never_serves (heap (mem fresh_process)) 38%Z = true ->
           status = 0%Z
           /\ stdout (mem st')
              = stdout (mem fresh_process)
                ++ (chars "Hello, Test! Welcome to Microsandbox!"
                    ++ [newline])
                ++ (chars "Test passed!" ++ [newline]))
       /\ (never_serves (heap (mem fresh_process)) 38%Z = false ->
           status = 1%Z
           /\ stdout (mem st')
              = stdout (mem fresh_process)
                ++ (chars "Test failed!" ++ [newline])
           /\ heap (mem st') = heap (mem fresh_process)
           /\ released st' = released fresh_process).
Proof.
  assert (Haddr : addressable 64 (chars "Test"))
    by (unfold addressable; simpl; lia).
  assert (Hrel : released_allocated fresh_process)
    by (unfold released_allocated; simpl; apply Forall_nil_2).
  split; [exact Haddr|]. split; [exact Hrel|].
  exact (c_test_main_reports 64 never_serves fresh_process Haddr Hrel).
Defined.

Lemma index_of_prefix (s1 s2 : string) :
  s2 <> "" -> String.prefix s1 s2 = true -> String.index 0 s1 s2 = Some 0%nat.
Proof.
  destruct s2 as [|b s2]; [done|]. intros _ Hpre.
  cbn [String.index]. by rewrite Hpre.
Qed.

(** X9. The check of the C++ test cannot fail, for any name: the text
    ["Hello, " + name + "!"] is found at position 0 of the string the C++
    binding returns.  Hence the C++ test function returns true and the C++
    test program exits with status 0 after the greeting line and
    ["Test passed!"], whatever the stream held before. *)
Theorem cpp_test_always_passes (n cout : string) :
  test_microsandbox_cpp.find (microsandbox.greet n cout).1
    ("Hello, " +:+ n +:+ "!") = Some 0%nat
  /\ (test_microsandbox_cpp.test_greet cout).1 = true
  /\ test_microsandbox_cpp.main cout
     = (0%Z,
        cout +:+ ("Hello, Test! Welcome to Microsandbox!"
                  +:+ microsandbox.endl)
             +:+ ("Test passed!" +:+ microsandbox.endl)).
Proof.
  split_and!.
  - unfold test_microsandbox_cpp.find. apply index_of_prefix.
    + discriminate.
    + rewrite greet_message.
      replace (greeting_text n)
        with (("Hello, " +:+ n +:+ "!") +:+ " Welcome to Microsandbox!")
        by (by rewrite !string_app_assoc).
      apply string_prefix_app.
  - reflexivity.
  - unfold test_microsandbox_cpp.main, test_microsandbox_cpp.test_greet,
      microsandbox.greet.
    cbv beta iota zeta.
    change (bool_decide _) with true. cbv beta iota.
    by rewrite !string_app_assoc.
Qed.

Lemma find_first_prefix (needle hay : list ascii) :
  needle `prefix_of` hay -> find_first needle hay = Some 0%nat.
Proof.
  intros Hpre. destruct hay; simpl; by rewrite decide_True.
Qed.

(** X10. The check of the C test cannot fail on a served call, for any
    name whose greeting line the library can count in an [int]: [strstr] finds ["Hello, " + name + "!"] at the very start of the
    returned buffer, so it returns the buffer itself, which is not null. *)
Theorem c_test_check_finds_prefix
    (size_bits : Z) (malloc_ok : list (list cell) -> Z -> bool)
    (name needle : ptr) (w : world) (s : list ascii)
    (Hname : cstring_at w name = Some s)
    (Haddr : addressable size_bits s)
    (Hfit : within_int s)
    (Halloc : malloc_ok (heap w) (Z.of_nat (length s) + 34)%Z = true)
    (Hneedle : cstring_at w needle
               = Some (chars "Hello, " ++ s ++ chars "!")) :
  exists p w',
    microsandbox_greet size_bits malloc_ok name w = Some (p, w')
    /\ p <> NULL
    /\ strstr p needle w' = Some (p, w').
Proof.
  rewrite (microsandbox_greet_run _ _ _ _ _ Hname Haddr Hfit), Halloc.
  eexists _, _. split_and!; [reflexivity|done|].
  unfold strstr.
  rewrite cstring_at_block
    by (by eapply greeting_no_NUL, cstring_at_no_NUL).
  rewrite (cstring_at_grow _ _ _ _ _ Hneedle).
  rewrite find_first_prefix; [reflexivity|].
  exists (chars " Welcome to Microsandbox!").
  unfold greeting. by rewrite <- !app_assoc.
Qed.

Lemma c_test_check_finds_prefix_witness :
  cstring_at fresh_world test_name = Some (chars "Test")
  /\ addressable 64 (chars "Test")
  /\ within_int (chars "Test")
  /\ cstring_at fresh_world (Rodata "Hello, Test!" 0)
     = Some (chars "Hello, " ++ chars "Test" ++ chars "!")
  /\ exists p w',
       microsandbox_greet 64 always_serves test_name fresh_world
       = Some (p, w')
       /\ p <> NULL
       /\ strstr p (Rodata "Hello, Test!" 0) w' = Some (p, w').
Proof.
  assert (Haddr : addressable 64 (chars "Test"))
    by (unfold addressable; simpl; lia).
  assert (Hfit : within_int (chars "Test"))
    by (unfold within_int, INT_MAX; simpl; lia).
  split; [reflexivity|]. split; [exact Haddr|]. split; [exact Hfit|].
  split; [reflexivity|].
  exact (c_test_check_finds_prefix 64 always_serves test_name
           (Rodata "Hello, Test!" 0) fresh_world (chars "Test")
           eq_refl Haddr Hfit eq_refl eq_refl).
Defined.




(** ** The greeting within the count of the library *)

(** X12. For every name whose greeting line the library can count in an
    [int], [greet name] returns exactly the string
    ["Hello, " + name + "! Welcome to Microsandbox!"]: in the C binding,
    when the allocation succeeds, the returned pointer is not null
    and points to that string; in the C++ binding the returned [std::string]
    is that string. *)
Theorem greet_returns_exact_greeting
    (size_bits : Z) (malloc_ok : list (list cell) -> Z -> bool)
    (name : ptr) (w : world) (s : list ascii) (n cout : string)
    (Hname : cstring_at w name = Some s)
    (Haddr : addressable size_bits s)
    (Hfit : within_int s)
    (Halloc : malloc_ok (heap w) (Z.of_nat (length s) + 34)%Z = true) :
  (exists p w',
      microsandbox_greet size_bits malloc_ok name w = Some (p, w')
      /\ p <> NULL
      /\ cstring_at w' p = Some (greeting s))
  /\ (microsandbox.greet n cout).1 = greeting_text n.
Proof.
  split; [|apply greet_message].
  rewrite (microsandbox_greet_run _ _ _ _ _ Hname Haddr Hfit), Halloc.
  eexists _, _. split_and!; [reflexivity|done|].
  apply cstring_at_block, greeting_no_NUL.
  by eapply cstring_at_no_NUL.
Qed.

Lemma greet_returns_exact_greeting_witness :
  cstring_at fresh_world test_name = Some (chars "Test")
  /\ addressable 64 (chars "Test")
  /\ within_int (chars "Test")
  /\ (exists p w',
         microsandbox_greet 64 always_serves test_name fresh_world
         = Some (p, w')
         /\ p <> NULL
         /\ cstring_at w' p
            = Some (chars "Hello, Test! Welcome to Microsandbox!"))
  /\ (microsandbox.greet "Test" "").1
     = "Hello, Test! Welcome to Microsandbox!".
Proof.
  assert (Haddr : addressable 64 (chars "Test"))
    by (unfold addressable; simpl; lia).
  assert (Hfit : within_int (chars "Test"))
    by (unfold within_int, INT_MAX; simpl; lia).
  split; [reflexivity|]. split; [exact Haddr|]. split; [exact Hfit|].
  exact (greet_returns_exact_greeting 64 always_serves test_name fresh_world
           (chars "Test") "Test" "" eq_refl Haddr Hfit eq_refl).
Defined.



(** X14. In the C binding, for a name whose greeting line the library can
    count in an [int], the size computed before the allocation,
    [strlen(prefix) + strlen(name) + strlen(suffix) + 1] in [size_t], is
    the length of the greeting plus one, that is [strlen(name) + 34]; the
    block [malloc] serves has that many cells; on return every one of them
    is written, the last with the terminator; and the returned string has
    length [strlen(name) + 33]. *)
Theorem buffer_fits_greeting_exactly
    (size_bits : Z) (malloc_ok : list (list cell) -> Z -> bool)
    (name : ptr) (w : world) (s : list ascii)
    (Hname : cstring_at w name = Some s)
    (Haddr : addressable size_bits s)
    (Hfit : within_int s)
    (Halloc : malloc_ok (heap w) (Z.of_nat (length s) + 34)%Z = true) :
  exists lp ln ls total_length b w1 w',
    strlen size_bits (Rodata "Hello, " 0) w = Some (lp, w)
    /\ strlen size_bits name w = Some (ln, w)
    /\ strlen size_bits (Rodata "! Welcome to Microsandbox!" 0) w
       = Some (ls, w)
    /\ total_length
       = size_t size_bits
           (size_t size_bits (size_t size_bits (lp + ln) + ls) + 1)
    /\ total_length = (Z.of_nat (length (greeting s)) + 1)%Z
    /\ total_length = (Z.of_nat (length s) + 34)%Z
    /\ malloc malloc_ok total_length w = Some (Dyn b 0, w1)
    /\ heap w1 !! b = Some (replicate (Z.to_nat total_length) None)
    /\ microsandbox_greet size_bits malloc_ok name w = Some (Dyn b 0, w')
    /\ heap w' !! b = Some (Some <$> (greeting s ++ [NUL]))
    /\ length (greeting s ++ [NUL]) = Z.to_nat total_length
    /\ strlen size_bits (Dyn b 0) w'
       = Some ((Z.of_nat (length s) + 33)%Z, w').
Proof.
  pose proof (addressable_bound _ _ Haddr) as Hbound.
  assert (Hnul : NUL ∉ greeting s)
    by (by eapply greeting_no_NUL, cstring_at_no_NUL).
  exists 7%Z, (Z.of_nat (length s)), 26%Z, (Z.of_nat (length s) + 34)%Z.
  eexists _, _, _. split_and!.
  - unfold strlen.
    change (cstring_at w (Rodata "Hello, " 0)) with (Some (chars "Hello, ")).
    cbv beta iota. by rewrite size_t_small by (simpl; lia).
  - unfold strlen. rewrite Hname. by rewrite size_t_small by lia.
  - unfold strlen.
    change (cstring_at w (Rodata "! Welcome to Microsandbox!" 0))
      with (Some (chars "! Welcome to Microsandbox!")).
    cbv beta iota. by rewrite size_t_small by (simpl; lia).
  - rewrite (size_t_small _ (7 + Z.of_nat (length s))) by lia.
    rewrite (size_t_small _ (7 + Z.of_nat (length s) + 26)) by lia.
    rewrite size_t_small; lia.
  - rewrite length_greeting. lia.
  - reflexivity.
  - unfold malloc. rewrite Halloc. reflexivity.
  - cbn [heap]. by rewrite list_lookup_middle.
  - by rewrite (microsandbox_greet_run _ _ _ _ _ Hname Haddr Hfit), Halloc.
  - cbn [heap]. by rewrite list_lookup_middle.
  - rewrite length_app, length_greeting. simpl. lia.
  - unfold strlen. rewrite cstring_at_block by done.
    rewrite length_greeting, size_t_small by lia.
    do 3 f_equal. lia.
Qed.

Lemma buffer_fits_greeting_exactly_witness :
  cstring_at fresh_world test_name = Some (chars "Test")
  /\ addressable 64 (chars "Test")
  /\ within_int (chars "Test")
  /\ exists lp ln ls total_length b w1 w',
       strlen 64 (Rodata "Hello, " 0) fresh_world = Some (lp, fresh_world)
       /\ strlen 64 test_name fresh_world = Some (ln, fresh_world)
       /\ strlen 64 (Rodata "! Welcome to Microsandbox!" 0) fresh_world
          = Some (ls, fresh_world)
       /\ total_length
          = size_t 64 (size_t 64 (size_t 64 (lp + ln) + ls) + 1)
       /\ total_length
          = (Z.of_nat (length (greeting (chars "Test"))) + 1)%Z
       /\ total_length = (Z.of_nat (length (chars "Test")) + 34)%Z
       /\ malloc always_serves total_length fresh_world = Some (Dyn b 0, w1)
       /\ heap w1 !! b = Some (replicate (Z.to_nat total_length) None)
       /\ microsandbox_greet 64 always_serves test_name fresh_world
          = Some (Dyn b 0, w')
       /\ heap w' !! b = Some (Some <$> (greeting (chars "Test") ++ [NUL]))
       /\ length (greeting (chars "Test") ++ [NUL]) = Z.to_nat total_length
       /\ strlen 64 (Dyn b 0) w'
          = Some ((Z.of_nat (length (chars "Test")) + 33)%Z, w').
Proof.
  assert (Haddr : addressable 64 (chars "Test"))
    by (unfold addressable; simpl; lia).
  assert (Hfit : within_int (chars "Test"))
    by (unfold within_int, INT_MAX; simpl; lia).
  split; [reflexivity|]. split; [exact Haddr|]. split; [exact Hfit|].
  exact (buffer_fits_greeting_exactly 64 always_serves test_name fresh_world
           (chars "Test") eq_refl Haddr Hfit eq_refl).
Defined.

